(** * The Traceloop / Anthropic joke cookbook

    A shallow embedding of the code cells of
    [cookbook/integration_anthropic_joke_example.ipynb] and the properties
    its specification states about them.

    The notebook is glue code: everything it does is a call into an
    external library.  The embedding therefore keeps a chronological
    history of the external calls the cells make (with the keyword
    arguments they carry) and of the text written to standard output, and
    threads Python's exceptions through an error monad laid over that
    history, so that what happened before an exception is still visible
    after it.

    Model boundary.  The one call whose outcome the environment chooses is
    [anthropic.messages.create]: it either returns a response object or
    raises.  [%pip install], [Traceloop.init()], [Anthropic()] and [print]
    are recorded in the history and return normally.  The notebook's cells
    are run in order as the statements of one Python script. *)

From Stdlib Require Import String ZArith List Lia.
From ExtLib Require Import Structures.Monad Structures.MonadState Structures.MonadExc.
From ExtLib Require Import Data.Monads.StateMonad Data.Monads.EitherMonad.
Import ListNotations.
Import MonadNotation.
Local Open Scope monad_scope.
Local Open Scope string_scope.
Local Open Scope list_scope.

Set Implicit Arguments.
Set Warnings "-register-all".

(** ** Python values built by the notebook's literals *)

(** The literals of the notebook: integers, strings, list displays and dict
    displays with string keys.  A dict display keeps its items in the order
    they are written. *)
Inductive pyval : Type :=
| PyInt (n : Z)
| PyStr (s : string)
| PyList (items : list pyval)
| PyDict (items : list (string * pyval)).

(** Keyword arguments of a call, in the order they are written. *)
Definition kwargs : Type := list (string * pyval).

(** [kw.get(key)]: the value bound to the first occurrence of [key]. *)
Fixpoint kwarg (key : string) (kw : kwargs) : option pyval :=
  match kw with
  | [] => None
  | (k, v) :: rest => if String.eqb k key then Some v else kwarg key rest
  end.

(** ** The history of a run *)

Inductive event : Type :=
| EvPipInstall (packages : list string)   (* %pip install ... *)
| EvTraceloopInit                         (* Traceloop.init() *)
| EvWorkflow (kw : kwargs)                (* workflow(name=...) over a def *)
| EvAnthropic                             (* Anthropic() *)
| EvMessagesCreate (kw : kwargs)          (* client.messages.create(...) *)
| EvStdout (text : string)                (* text written to sys.stdout *)
| EvTraceRecord (name : string).          (* trace record sent by the tracing SDK *)

Definition World : Type := list event.

(** The line terminator [print] appends. *)
Definition newline : string := String (Ascii.ascii_of_nat 10) "".

(** Everything written to standard output so far. *)
Fixpoint stdout (w : World) : string :=
  match w with
  | [] => ""
  | EvStdout text :: rest => (text ++ stdout rest)%string
  | _ :: rest => stdout rest
  end.

(** The model requests issued so far, oldest first. *)
Fixpoint requests (w : World) : list kwargs :=
  match w with
  | [] => []
  | EvMessagesCreate kw :: rest => kw :: requests rest
  | _ :: rest => requests rest
  end.

(** The keyword arguments of the tracing annotations applied so far. *)
Fixpoint annotations (w : World) : list kwargs :=
  match w with
  | [] => []
  | EvWorkflow kw :: rest => kw :: annotations rest
  | _ :: rest => annotations rest
  end.

Definition is_request (e : event) : bool :=
  match e with EvMessagesCreate _ => true | _ => false end.

Definition is_init (e : event) : bool :=
  match e with EvTraceloopInit => true | _ => false end.

Definition is_annotation (e : event) : bool :=
  match e with EvWorkflow _ => true | _ => false end.

Definition is_client (e : event) : bool :=
  match e with EvAnthropic => true | _ => false end.

(** Position of the first event satisfying [p], if any. *)
Fixpoint first_index (p : event -> bool) (w : World) : option nat :=
  match w with
  | [] => None
  | e :: rest => if p e then Some 0%nat
                 else option_map S (first_index p rest)
  end.

Section Cookbook.

(** The response object belongs to the external client library: the type
    of its [content] field, the rest of its fields, the way [str] renders
    the content and the exceptions the library raises are parameters. *)
Variable Content : Type.
Variable Rest : Type.
Variable Exn : Type.
Variable py_str : Content -> string.

Record Response : Type := mkResponse
  { content : Content;
    other_fields : Rest }.

(** ** The monad of Python statements

    A computation maps the history so far to an outcome ([inl e]: the
    exception [e] was raised, [inr v]: [v] was returned) and the history
    after it. *)
Definition Py : Type -> Type := eitherT Exn (state World).

Definition run {A} (m : Py A) (w : World) : (Exn + A) * World :=
  runState (unEitherT m) w.

Definition outcome {A} (m : Py A) (w : World) : Exn + A := fst (run m w).
Definition history {A} (m : Py A) (w : World) : World := snd (run m w).

Definition emit (e : event) : Py unit :=
  w <- get ;;
  put (w ++ [e]).

(** ** The external calls *)

(** The hosted model as seen through the client library: what
    [messages.create] answers to a request. *)
Record Provider : Type := mkProvider
  { reply : kwargs -> Exn + Response }.

Record Client : Type := mkClient
  { provider : Provider }.

(** [%pip install p1 p2 ...] *)
Definition pip_install (packages : list string) : Py unit :=
  emit (EvPipInstall packages).

(** [Traceloop.init()] *)
Definition Traceloop_init : Py unit :=
  emit EvTraceloopInit.

(** [Anthropic()] *)
Definition Anthropic (api : Provider) : Py Client :=
  emit EvAnthropic ;;
  ret (mkClient api).

(** [client.messages.create(...)] with keyword arguments [kw]: one
    request; the provider's answer is returned or raised as it is. *)
Definition messages_create (client : Client) (kw : kwargs) : Py Response :=
  emit (EvMessagesCreate kw) ;;
  match reply (provider client) kw with
  | inl e => raise e
  | inr response => ret response
  end.

(** [print(x)]: [str(x)] followed by a newline on standard output. *)
Definition print (x : Content) : Py unit :=
  emit (EvStdout (py_str x ++ newline)%string).

(** Modelled from the spec: the function that the [workflow] decorator of
    [traceloop.sdk.decorators] puts in place of the decorated one.  The
    decorator is code of the tracing SDK, not of this repository.  Per
    the spec (4.1), invoking the wrapped function executes the original
    function unchanged and, as a side effect, emits a trace record; the
    return value and the error behaviour are those of the original. *)
Definition workflow_wrapper {A} (name : string) (fn : Py A) : Py A :=
  catch (result <- fn ;;
         emit (EvTraceRecord name) ;;
         ret result)
        (fun e => emit (EvTraceRecord name) ;;
                  raise e).

(** Modelled from the spec: [@workflow(name=...)] over a [def].  The
    annotation takes a single keyword, the workflow name, and yields the
    wrapped function. *)
Definition workflow {A} (name : string) (fn : Py A) : Py (Py A) :=
  emit (EvWorkflow [("name", PyStr name)]) ;;
  ret (workflow_wrapper name fn).

(** ** The notebook's code *)

Section Notebook.

Variable api : Provider.

(** The body of [def joke_workflow()]. *)
Definition joke_workflow_body : Py Response :=
  (* Create an instance of the Anthropic API *)
  anthropic <- Anthropic api ;;
  (* Request a joke about OpenTelemetry *)
  response <- messages_create anthropic
    [ ("max_tokens", PyInt 1024);
      ("messages",
         PyList [ PyDict [ ("role", PyStr "user");
                           ("content", PyStr "Tell me a joke about OpenTelemetry") ] ]);
      ("model", PyStr "claude-3-opus-20240229") ] ;;
  (* Print the response *)
  print (content response) ;;
  ret response.

(** The function bound to the name [joke_workflow] once the decorated
    [def] has run. *)
Definition joke_workflow : Py Response :=
  workflow_wrapper "pirate_joke_generator" joke_workflow_body.

(** First code cell. *)
Definition cell_install : Py unit :=
  pip_install [ "traceloop-sdk"; "anthropic" ].

(** Second code cell (imports have no effect on the history). *)
Definition cell_init : Py unit :=
  Traceloop_init.

(** Third code cell: the decorated [def], then the call, an expression
    statement. *)
Definition cell_workflow : Py unit :=
  joke_workflow <- workflow "pirate_joke_generator" joke_workflow_body ;;
  _ <- joke_workflow ;;
  ret tt.

(** The code cells in order. *)
Definition notebook : Py unit :=
  cell_install ;;
  cell_init ;;
  cell_workflow.

End Notebook.

(** ** Vocabulary of the properties *)

(** The keyword arguments written at the [messages.create] call site,
    under a name, for the statements below. *)
Definition joke_request : kwargs :=
  [ ("max_tokens", PyInt 1024);
    ("messages",
       PyList [ PyDict [ ("role", PyStr "user");
                         ("content", PyStr "Tell me a joke about OpenTelemetry") ] ]);
    ("model", PyStr "claude-3-opus-20240229") ].

(** The history the notebook's own statements leave before
    [joke_workflow()] is called. *)
Definition before_the_call : World :=
  [ EvPipInstall [ "traceloop-sdk"; "anthropic" ];
    EvTraceloopInit;
    EvWorkflow [ ("name", PyStr "pirate_joke_generator") ] ].

(** An invocation of [fn] from history [w] that issues one request, then
    prints the response, then returns the response object. *)
Definition request_print_return (fn : Py Response) (w : World) : Prop :=
  exists (req : kwargs) (response : Response),
    history fn w =
      w ++ [ EvAnthropic;
             EvMessagesCreate req;
             EvStdout (py_str (content response) ++ newline)%string;
             EvTraceRecord "pirate_joke_generator" ]
    /\ outcome fn w = inr response.

End Cookbook.

(** How often an event satisfying [p] occurs. *)
Definition occurrences (p : event -> bool) (w : World) : nat :=
  length (filter p w).

(** No model request is issued before [Traceloop.init()] has run;
    [initialised] tells whether it had run before [w]. *)
Fixpoint requests_follow_init (initialised : bool) (w : World) : bool :=
  match w with
  | [] => true
  | EvTraceloopInit :: rest => requests_follow_init true rest
  | EvMessagesCreate _ :: rest =>
      initialised && requests_follow_init initialised rest
  | _ :: rest => requests_follow_init initialised rest
  end.

(** ** Concrete environments

    Responses whose content is plain text, rendered as it is, with a
    numeric identifier for the remaining fields; exceptions named by their
    class. *)
Module Sample.

Definition render (text : string) : string := text.

Definition joke : Response string nat :=
  mkResponse "Why did the span cross the service? To reach the other trace." 1%nat.

(** Same content as [joke], different remaining fields. *)
Definition joke_again : Response string nat :=
  mkResponse "Why did the span cross the service? To reach the other trace." 2%nat.

Definition answering : Provider string nat string :=
  mkProvider (fun _ => inr joke).

Definition answering_again : Provider string nat string :=
  mkProvider (fun _ => inr joke_again).

Definition failing : Provider string nat string :=
  mkProvider (fun _ => inl "APIConnectionError").

(** Answers with [joke] when asked for the model of the notebook and
    refuses every other request. *)
Definition selective : Provider string nat string :=
  mkProvider (fun kw =>
    match kwarg "model" kw with
    | Some (PyStr m) =>
        if String.eqb m "claude-3-opus-20240229" then inr joke
        else inl "NotFoundError"
    | _ => inl "BadRequestError"
    end).

End Sample.

(** ** Properties *)

Lemma string_append_assoc (a b c : string) :
  ((a ++ b) ++ c = a ++ (b ++ c))%string.
Proof.
  induction a as [|ch a IH]; simpl; [reflexivity | now rewrite IH].
Qed.

Lemma stdout_app (w1 w2 : World) :
  stdout (w1 ++ w2) = (stdout w1 ++ stdout w2)%string.
Proof.
  induction w1 as [|e w1 IH]; simpl; [reflexivity|].
  destruct e; simpl; try exact IH.
  now rewrite IH, string_append_assoc.
Qed.

Lemma requests_app (w1 w2 : World) :
  requests (w1 ++ w2) = requests w1 ++ requests w2.
Proof.
  induction w1 as [|e w1 IH]; simpl; [reflexivity|].
  destruct e; simpl; try exact IH.
  now rewrite IH.
Qed.

Lemma annotations_app (w1 w2 : World) :
  annotations (w1 ++ w2) = annotations w1 ++ annotations w2.
Proof.
  induction w1 as [|e w1 IH]; simpl; [reflexivity|].
  destruct e; simpl; try exact IH.
  now rewrite IH.
Qed.

Lemma string_append_empty (a : string) : (a ++ "")%string = a.
Proof.
  induction a as [|ch a IH]; simpl; [reflexivity | now rewrite IH].
Qed.

Section Properties.

Variables Content Rest Exn : Type.
Variable py_str : Content -> string.

Implicit Types (api : Provider Content Rest Exn) (w : World).
Implicit Types (r : Response Content Rest) (e : Exn).

(** *** The wrapper, for any wrapped function *)

Lemma wrapper_outcome A (name : string) (fn : Py Exn A) w :
  outcome (workflow_wrapper name fn) w = outcome fn w.
Proof.
  unfold outcome, run, workflow_wrapper. simpl.
  destruct (runState (unEitherT fn) w) as [[e|a] w']; reflexivity.
Qed.

Lemma wrapper_history A (name : string) (fn : Py Exn A) w :
  history (workflow_wrapper name fn) w = history fn w ++ [EvTraceRecord name].
Proof.
  unfold history, run, workflow_wrapper. simpl.
  destruct (runState (unEitherT fn) w) as [[e|a] w']; reflexivity.
Qed.

(** *** One invocation of the body, by the answer of the provider *)

Lemma run_body_returns api w r :
  reply api joke_request = inr r ->
  run (joke_workflow_body py_str api) w =
    (inr r,
     w ++ [ EvAnthropic;
            EvMessagesCreate joke_request;
            EvStdout (py_str (content r) ++ newline)%string ]).
Proof.
  intros Hr. unfold joke_workflow_body, run. simpl.
  unfold joke_request in Hr. rewrite Hr. simpl.
  now rewrite <- !app_assoc.
Qed.

Lemma run_body_raises api w e :
  reply api joke_request = inl e ->
  run (joke_workflow_body py_str api) w =
    (inl e, w ++ [ EvAnthropic; EvMessagesCreate joke_request ]).
Proof.
  intros He. unfold joke_workflow_body, run. simpl.
  unfold joke_request in He. rewrite He. simpl.
  now rewrite <- !app_assoc.
Qed.

(** Whatever the provider answers, the body issues the request written
    at the call site, once. *)
Lemma body_requests api w :
  requests (history (joke_workflow_body py_str api) w) =
  requests w ++ [joke_request].
Proof.
  unfold history.
  destruct (reply api joke_request) as [e|r] eqn:Hreply.
  - rewrite (run_body_raises _ _ Hreply). simpl.
    now rewrite requests_app.
  - rewrite (run_body_returns _ _ Hreply). simpl.
    now rewrite requests_app.
Qed.

(** *** One invocation of the decorated function *)

Lemma workflow_returns api w r :
  reply api joke_request = inr r ->
  outcome (joke_workflow py_str api) w = inr r /\
  history (joke_workflow py_str api) w =
    w ++ [ EvAnthropic;
           EvMessagesCreate joke_request;
           EvStdout (py_str (content r) ++ newline)%string;
           EvTraceRecord "pirate_joke_generator" ].
Proof.
  intros Hr. unfold joke_workflow.
  rewrite wrapper_outcome, wrapper_history.
  unfold outcome, history. rewrite (run_body_returns _ _ Hr). simpl.
  split; [reflexivity | now rewrite <- app_assoc].
Qed.

Lemma workflow_raises api w e :
  reply api joke_request = inl e ->
  outcome (joke_workflow py_str api) w = inl e /\
  history (joke_workflow py_str api) w =
    w ++ [ EvAnthropic;
           EvMessagesCreate joke_request;
           EvTraceRecord "pirate_joke_generator" ].
Proof.
  intros He. unfold joke_workflow.
  rewrite wrapper_outcome, wrapper_history.
  unfold outcome, history. rewrite (run_body_raises _ _ He). simpl.
  split; [reflexivity | now rewrite <- app_assoc].
Qed.

Lemma workflow_requests api w :
  requests (history (joke_workflow py_str api) w) =
  requests w ++ [joke_request].
Proof.
  unfold joke_workflow. rewrite wrapper_history, requests_app.
  rewrite body_requests. simpl. now rewrite app_nil_r.
Qed.

(** *** The request *)

(** C1: every invocation of [joke_workflow] issues a request whose
    [max_tokens] keyword is the integer 1024 and whose [model] keyword is
    the string "claude-3-opus-20240229", the literals of the source. *)
Theorem request_max_tokens_and_model api w :
  exists req : kwargs,
    requests (history (joke_workflow py_str api) w) = requests w ++ [req] /\
    kwarg "max_tokens" req = Some (PyInt 1024) /\
    kwarg "model" req = Some (PyStr "claude-3-opus-20240229").
Proof.
  exists joke_request. rewrite workflow_requests.
  repeat split.
Qed.

(** C2: the request of every invocation has exactly the keywords
    [max_tokens], [messages] and [model]: an integer, a list of exactly
    one message whose role is the string "user" and whose content is a
    string, and a string. *)
Theorem request_fixed_shape api w :
  exists (limit : Z) (text model : string),
    requests (history (joke_workflow py_str api) w) =
    requests w ++
      [ [ ("max_tokens", PyInt limit);
          ("messages",
             PyList [ PyDict [ ("role", PyStr "user");
                               ("content", PyStr text) ] ]);
          ("model", PyStr model) ] ].
Proof.
  exists 1024%Z, "Tell me a joke about OpenTelemetry", "claude-3-opus-20240229".
  now rewrite workflow_requests.
Qed.

(** C3: the single user message of every invocation carries the prompt
    "Tell me a joke about OpenTelemetry"; and when the provider answers
    with a response, the invocation ends without an exception and has
    written the rendering of the response's content, with print's
    newline, to standard output. *)
Theorem fixed_prompt_printed_without_error api w :
  (exists (req : kwargs) (message : list (string * pyval)),
      requests (history (joke_workflow py_str api) w) = requests w ++ [req] /\
      kwarg "messages" req = Some (PyList [PyDict message]) /\
      kwarg "content" message =
        Some (PyStr "Tell me a joke about OpenTelemetry")) /\
  (forall r,
      reply api joke_request = inr r ->
      (exists v, outcome (joke_workflow py_str api) w = inr v) /\
      stdout (history (joke_workflow py_str api) w) =
        (stdout w ++ py_str (content r) ++ newline)%string).
Proof.
  split.
  - exists joke_request. eexists. rewrite workflow_requests.
    split; [reflexivity|]. split; reflexivity.
  - intros r Hr. destruct (workflow_returns _ w Hr) as [Hout Hhist].
    split; [now exists r|].
    rewrite Hhist, stdout_app. simpl.
    now rewrite string_append_empty.
Qed.

(** *** The third cell and the whole notebook *)

Lemma run_cell_workflow api w :
  run (cell_workflow py_str api) w =
    (match outcome (joke_workflow py_str api)
                   (w ++ [EvWorkflow [("name", PyStr "pirate_joke_generator")]]) with
     | inl e => inl e
     | inr _ => inr tt
     end,
     history (joke_workflow py_str api)
             (w ++ [EvWorkflow [("name", PyStr "pirate_joke_generator")]])).
Proof.
  unfold cell_workflow, workflow.
  fold (joke_workflow py_str api).
  generalize (joke_workflow py_str api). intros decorated.
  unfold outcome, history, run. simpl.
  destruct (runState (unEitherT decorated)
              (w ++ [EvWorkflow [("name", PyStr "pirate_joke_generator")]]))
    as [[e|r] w']; reflexivity.
Qed.

Lemma run_notebook api :
  run (notebook py_str api) [] =
    (match outcome (joke_workflow py_str api) before_the_call with
     | inl e => inl e
     | inr _ => inr tt
     end,
     history (joke_workflow py_str api) before_the_call).
Proof.
  unfold notebook, run. simpl.
  pose proof (run_cell_workflow api
                [EvPipInstall ["traceloop-sdk"; "anthropic"]; EvTraceloopInit])
    as Hcell.
  unfold run in Hcell. simpl in Hcell. rewrite Hcell. reflexivity.
Qed.

Lemma notebook_history api :
  history (notebook py_str api) [] =
  history (joke_workflow py_str api) before_the_call.
Proof. unfold history at 1. now rewrite run_notebook. Qed.

Lemma notebook_outcome api :
  outcome (notebook py_str api) [] =
  match outcome (joke_workflow py_str api) before_the_call with
  | inl e => inl e
  | inr _ => inr tt
  end.
Proof. unfold outcome at 1. now rewrite run_notebook. Qed.

(** *** The tracing annotation *)

(** C4: the decorated [def] applies one tracing annotation, whose only
    keyword is [name], bound to the string "pirate_joke_generator"; what
    it binds to the name [joke_workflow] is the wrapper carrying that
    same name. *)
Theorem workflow_name_passed_to_annotation api w :
  annotations (history (cell_workflow py_str api) w) =
    annotations w ++ [ [ ("name", PyStr "pirate_joke_generator") ] ] /\
  outcome (workflow "pirate_joke_generator" (joke_workflow_body py_str api)) w =
    inr (joke_workflow py_str api).
Proof.
  split; [|reflexivity].
  unfold history at 1. rewrite run_cell_workflow. simpl.
  unfold joke_workflow. rewrite wrapper_history, annotations_app.
  unfold history.
  destruct (reply api joke_request) as [e|r] eqn:Hreply.
  - rewrite (run_body_raises _ _ Hreply). simpl.
    rewrite !annotations_app. simpl. now rewrite !app_nil_r.
  - rewrite (run_body_returns _ _ Hreply). simpl.
    rewrite !annotations_app. simpl. now rewrite !app_nil_r.
Qed.

(** C5: whatever the provider answers, the decorated [joke_workflow]
    ends as its undecorated body does (same returned response or same
    raised exception), with the same standard output and the same
    requests; the only difference in the history is the trace record. *)
Theorem decorated_equivalent_to_body api w :
  outcome (joke_workflow py_str api) w =
    outcome (joke_workflow_body py_str api) w /\
  stdout (history (joke_workflow py_str api) w) =
    stdout (history (joke_workflow_body py_str api) w) /\
  requests (history (joke_workflow py_str api) w) =
    requests (history (joke_workflow_body py_str api) w) /\
  history (joke_workflow py_str api) w =
    history (joke_workflow_body py_str api) w ++
      [ EvTraceRecord "pirate_joke_generator" ].
Proof.
  unfold joke_workflow. rewrite wrapper_outcome, wrapper_history.
  rewrite stdout_app, requests_app. simpl.
  now rewrite string_append_empty, app_nil_r.
Qed.

(** *** Failure *)

(** C6: when [messages.create] raises an exception, the invocation of
    [joke_workflow] raises that same exception, standard output is as it
    was before the invocation, the request was issued once and not again,
    and no response is returned; the body itself stops at the request,
    with the exception as its outcome. *)
Theorem failure_propagates_unchanged api w e :
  reply api joke_request = inl e ->
  outcome (joke_workflow py_str api) w = inl e /\
  stdout (history (joke_workflow py_str api) w) = stdout w /\
  requests (history (joke_workflow py_str api) w) =
    requests w ++ [joke_request] /\
  (forall r, outcome (joke_workflow py_str api) w <> inr r) /\
  run (joke_workflow_body py_str api) w =
    (inl e, w ++ [ EvAnthropic; EvMessagesCreate joke_request ]).
Proof.
  intros He. destruct (workflow_raises _ w He) as [Hout Hhist].
  repeat split.
  - exact Hout.
  - rewrite Hhist, stdout_app. simpl. apply string_append_empty.
  - apply workflow_requests.
  - intros r Hr. rewrite Hout in Hr. discriminate Hr.
  - exact (run_body_raises _ _ He).
Qed.

(** *** Order of the steps *)

(** C7, as amended: every invocation of [joke_workflow] issues exactly
    one model request; when the provider answers it with a response, the
    invocation then prints the response's content and then returns the
    response object, in that order. *)
Theorem one_request_then_print_then_return api w :
  requests (history (joke_workflow py_str api) w) =
    requests w ++ [joke_request] /\
  (forall r,
      reply api joke_request = inr r ->
      history (joke_workflow py_str api) w =
        w ++ [ EvAnthropic;
               EvMessagesCreate joke_request;
               EvStdout (py_str (content r) ++ newline)%string;
               EvTraceRecord "pirate_joke_generator" ] /\
      outcome (joke_workflow py_str api) w = inr r).
Proof.
  split; [apply workflow_requests|].
  intros r Hr. destruct (workflow_returns _ w Hr) as [Hout Hhist].
  now split.
Qed.

(** *** What is printed and what is returned *)

(** C8: for two responses that agree on their content field, whatever
    their other fields, the invocations that receive them leave the same
    text on standard output. *)
Theorem stdout_depends_only_on_content api1 api2 w r1 r2 :
  reply api1 joke_request = inr r1 ->
  reply api2 joke_request = inr r2 ->
  content r1 = content r2 ->
  stdout (history (joke_workflow py_str api1) w) =
  stdout (history (joke_workflow py_str api2) w).
Proof.
  intros H1 H2 Hcontent.
  destruct (workflow_returns _ w H1) as [_ Hhist1].
  destruct (workflow_returns _ w H2) as [_ Hhist2].
  rewrite Hhist1, Hhist2, !stdout_app. simpl.
  now rewrite Hcontent.
Qed.

(** C9: when the provider answers with a response, the invocation of
    [joke_workflow] returns that very response: its content and all its
    other fields are those the provider produced. *)
Theorem response_returned_unmodified api w r :
  reply api joke_request = inr r ->
  outcome (joke_workflow py_str api) w = inr r /\
  outcome (joke_workflow_body py_str api) w = inr r.
Proof.
  intros Hr. split.
  - apply (workflow_returns _ w Hr).
  - unfold outcome. now rewrite (run_body_returns _ _ Hr).
Qed.

(** *** The run of the notebook *)

(** C10: a run of the notebook is [Traceloop.init()], then the decorated
    definition, then one invocation of [joke_workflow]: initialisation is
    the second event, the annotation the third, the client of the single
    invocation the fourth and the single model request the fifth, so no
    request precedes initialisation; the notebook keeps nothing of the
    returned response: it ends with [tt] when the invocation returns and
    with the invocation's exception when it raises. *)
Theorem init_then_single_invocation api :
  history (notebook py_str api) [] =
    history (joke_workflow py_str api) before_the_call /\
  first_index is_init (history (notebook py_str api) []) = Some 1%nat /\
  first_index is_annotation (history (notebook py_str api) []) = Some 2%nat /\
  first_index is_client (history (notebook py_str api) []) = Some 3%nat /\
  first_index is_request (history (notebook py_str api) []) = Some 4%nat /\
  occurrences is_init (history (notebook py_str api) []) = 1%nat /\
  occurrences is_client (history (notebook py_str api) []) = 1%nat /\
  occurrences is_request (history (notebook py_str api) []) = 1%nat /\
  requests_follow_init false (history (notebook py_str api) []) = true /\
  (forall r, reply api joke_request = inr r ->
             outcome (notebook py_str api) [] = inr tt) /\
  (forall e, reply api joke_request = inl e ->
             outcome (notebook py_str api) [] = inl e).
Proof.
  rewrite notebook_outcome, notebook_history.
  destruct (reply api joke_request) as [e|r] eqn:Hreply.
  - destruct (workflow_raises _ before_the_call Hreply) as [Hout Hhist].
    rewrite Hout, Hhist. simpl.
    repeat split; try reflexivity; intros ? Heq; congruence.
  - destruct (workflow_returns _ before_the_call Hreply) as [Hout Hhist].
    rewrite Hout, Hhist. simpl.
    repeat split; try reflexivity; intros ? Heq; congruence.
Qed.

End Properties.

(** ** Concrete runs *)

Example run_answering :
  run (notebook Sample.render Sample.answering) [] =
    (inr tt,
     [ EvPipInstall [ "traceloop-sdk"; "anthropic" ];
       EvTraceloopInit;
       EvWorkflow [ ("name", PyStr "pirate_joke_generator") ];
       EvAnthropic;
       EvMessagesCreate joke_request;
       EvStdout (content Sample.joke ++ newline)%string;
       EvTraceRecord "pirate_joke_generator" ]).
Proof. reflexivity. Qed.

Example run_failing :
  run (notebook Sample.render Sample.failing) [] =
    (inl "APIConnectionError",
     [ EvPipInstall [ "traceloop-sdk"; "anthropic" ];
       EvTraceloopInit;
       EvWorkflow [ ("name", PyStr "pirate_joke_generator") ];
       EvAnthropic;
       EvMessagesCreate joke_request;
       EvTraceRecord "pirate_joke_generator" ]).
Proof. reflexivity. Qed.

(** C3 at the answering provider: the joke is printed and returned. *)
Lemma fixed_prompt_printed_without_error_witness :
  reply Sample.answering joke_request = inr Sample.joke /\
  (exists v, outcome (joke_workflow Sample.render Sample.answering) [] = inr v) /\
  stdout (history (joke_workflow Sample.render Sample.answering) []) =
    (content Sample.joke ++ newline)%string.
Proof.
  split; [reflexivity|].
  exact (proj2 (fixed_prompt_printed_without_error
                  Sample.render Sample.answering [])
               Sample.joke eq_refl).
Defined.

(** C6 at the failing provider: the connection error comes out as it is. *)
Lemma failure_propagates_unchanged_witness :
  reply Sample.failing joke_request = inl "APIConnectionError" /\
  outcome (joke_workflow Sample.render Sample.failing) [] =
    inl "APIConnectionError" /\
  stdout (history (joke_workflow Sample.render Sample.failing) []) = "" /\
  requests (history (joke_workflow Sample.render Sample.failing) []) =
    [joke_request] /\
  (forall r, outcome (joke_workflow Sample.render Sample.failing) [] <> inr r) /\
  run (joke_workflow_body Sample.render Sample.failing) [] =
    (inl "APIConnectionError", [ EvAnthropic; EvMessagesCreate joke_request ]).
Proof.
  split; [reflexivity|].
  apply (failure_propagates_unchanged Sample.render Sample.failing []).
  reflexivity.
Defined.

(** The reading of C7 as stated is met by an invocation that is answered. *)
Example answering_invocation_prints_and_returns :
  request_print_return Sample.render
    (joke_workflow Sample.render Sample.answering) [].
Proof.
  exists joke_request, Sample.joke. split; reflexivity.
Qed.

(** C7 as stated fails when the provider raises: that invocation issues its
    request and then neither prints nor returns; it ends with the
    exception. *)
Lemma failing_invocation_neither_prints_nor_returns :
  ~ request_print_return Sample.render
      (joke_workflow Sample.render Sample.failing) [] /\
  requests (history (joke_workflow Sample.render Sample.failing) []) =
    [joke_request] /\
  stdout (history (joke_workflow Sample.render Sample.failing) []) = "" /\
  outcome (joke_workflow Sample.render Sample.failing) [] =
    inl "APIConnectionError".
Proof.
  split; [|repeat split].
  intros (req & response & _ & Hout).
  vm_compute in Hout. discriminate Hout.
Qed.

(** C7, as amended, at the answering provider. *)
Lemma one_request_then_print_then_return_witness :
  reply Sample.answering joke_request = inr Sample.joke /\
  history (joke_workflow Sample.render Sample.answering) [] =
    [ EvAnthropic;
      EvMessagesCreate joke_request;
      EvStdout (content Sample.joke ++ newline)%string;
      EvTraceRecord "pirate_joke_generator" ] /\
  outcome (joke_workflow Sample.render Sample.answering) [] = inr Sample.joke.
Proof.
  split; [reflexivity|].
  exact (proj2 (one_request_then_print_then_return
                  Sample.render Sample.answering [])
               Sample.joke eq_refl).
Defined.

(** C8 at two responses with the same content and different other fields. *)
Lemma stdout_depends_only_on_content_witness :
  reply Sample.answering joke_request = inr Sample.joke /\
  reply Sample.answering_again joke_request = inr Sample.joke_again /\
  content Sample.joke = content Sample.joke_again /\
  Sample.joke <> Sample.joke_again /\
  stdout (history (joke_workflow Sample.render Sample.answering) []) =
  stdout (history (joke_workflow Sample.render Sample.answering_again) []).
Proof.
  split; [reflexivity|]. split; [reflexivity|]. split; [reflexivity|].
  split; [discriminate|].
  apply (stdout_depends_only_on_content Sample.render
           Sample.answering Sample.answering_again []
           (r1 := Sample.joke) (r2 := Sample.joke_again));
    reflexivity.
Defined.

(** C9 at the answering provider. *)
Lemma response_returned_unmodified_witness :
  reply Sample.answering joke_request = inr Sample.joke /\
  outcome (joke_workflow Sample.render Sample.answering) [] = inr Sample.joke /\
  outcome (joke_workflow_body Sample.render Sample.answering) [] = inr Sample.joke.
Proof.
  split; [reflexivity|].
  apply (response_returned_unmodified Sample.render Sample.answering []).
  reflexivity.
Defined.

(** C10 at the answering and at the failing provider. *)
Lemma init_then_single_invocation_witness :
  reply Sample.answering joke_request = inr Sample.joke /\
  outcome (notebook Sample.render Sample.answering) [] = inr tt /\
  reply Sample.failing joke_request = inl "APIConnectionError" /\
  outcome (notebook Sample.render Sample.failing) [] = inl "APIConnectionError".
Proof.
  split; [reflexivity|]. split.
  - destruct (init_then_single_invocation Sample.render Sample.answering)
      as (_ & _ & _ & _ & _ & _ & _ & _ & _ & Hreturns & _).
    exact (Hreturns Sample.joke eq_refl).
  - split; [reflexivity|].
    destruct (init_then_single_invocation Sample.render Sample.failing)
      as (_ & _ & _ & _ & _ & _ & _ & _ & _ & _ & Hraises).
    exact (Hraises "APIConnectionError" eq_refl).
Defined.

(** ** Further properties of the workflow *)

Lemma string_length_append (a b : string) :
  String.length (a ++ b)%string = (String.length a + String.length b)%nat.
Proof.
  induction a as [|ch a IH]; simpl; [reflexivity | now rewrite IH].
Qed.

Lemma string_append_grows (a b : string) :
  b <> ""%string -> (a ++ b)%string <> a.
Proof.
  intros Hb Heq. apply (f_equal String.length) in Heq.
  rewrite string_length_append in Heq.
  destruct b as [|ch b]; [now apply Hb|].
  simpl in Heq. lia.
Qed.

Lemma rendered_line_not_empty (text : string) :
  (text ++ newline)%string <> ""%string.
Proof. destruct text; discriminate. Qed.

Section Transparency.

Variables Content Rest Exn : Type.
Variable py_str : Content -> string.

Implicit Types (api : Provider Content Rest Exn) (w : World).

(** X1: one invocation of the body of [joke_workflow] ends exactly as
    [messages.create] ended: its outcome is the provider's answer to the
    request, response or exception alike; it has constructed one client
    and issued the request in either case, and printed only in the
    first.  The decorated function has the same outcome. *)
Theorem workflow_outcome_is_provider_answer api w :
  run (joke_workflow_body py_str api) w =
    (reply api joke_request,
     w ++ [ EvAnthropic; EvMessagesCreate joke_request ]
       ++ match reply api joke_request with
          | inl _ => []
          | inr r => [ EvStdout (py_str (content r) ++ newline)%string ]
          end) /\
  outcome (joke_workflow py_str api) w = reply api joke_request.
Proof.
  destruct (reply api joke_request) as [e|r] eqn:Hreply.
  - split.
    + now rewrite (run_body_raises py_str _ _ Hreply).
    + apply (workflow_raises py_str _ w Hreply).
  - split.
    + now rewrite (run_body_returns py_str _ _ Hreply).
    + apply (workflow_returns py_str _ w Hreply).
Qed.

(** X2: the provider is consulted for the request of the call site and for
    nothing else: two providers that answer that request alike give the
    same run of [joke_workflow] and of the whole notebook, wherever else
    they differ. *)
Theorem run_depends_on_one_answer api1 api2 w :
  reply api1 joke_request = reply api2 joke_request ->
  run (joke_workflow py_str api1) w = run (joke_workflow py_str api2) w /\
  run (notebook py_str api1) [] = run (notebook py_str api2) [].
Proof.
  intros Hsame.
  assert (Hrun : forall w', run (joke_workflow py_str api1) w' =
                            run (joke_workflow py_str api2) w').
  { intros w'.
    rewrite (surjective_pairing (run (joke_workflow py_str api1) w')).
    rewrite (surjective_pairing (run (joke_workflow py_str api2) w')).
    fold (outcome (joke_workflow py_str api1) w').
    fold (history (joke_workflow py_str api1) w').
    fold (outcome (joke_workflow py_str api2) w').
    fold (history (joke_workflow py_str api2) w').
    destruct (reply api2 joke_request) as [e|r] eqn:Hreply.
    - destruct (workflow_raises py_str _ w' Hsame) as [-> ->].
      destruct (workflow_raises py_str _ w' Hreply) as [-> ->].
      reflexivity.
    - destruct (workflow_returns py_str _ w' Hsame) as [-> ->].
      destruct (workflow_returns py_str _ w' Hreply) as [-> ->].
      reflexivity. }
  split; [apply Hrun|].
  rewrite !run_notebook. unfold outcome, history.
  now rewrite Hrun.
Qed.


(** X4: an invocation of [joke_workflow] changes standard output if and
    only if [messages.create] returned a response; what was on standard
    output before stays a prefix of it in every case. *)
Theorem prints_iff_answered api w :
  (stdout (history (joke_workflow py_str api) w) <> stdout w <->
   exists r, reply api joke_request = inr r) /\
  exists text,
    stdout (history (joke_workflow py_str api) w) = (stdout w ++ text)%string.
Proof.
  destruct (reply api joke_request) as [e|r] eqn:Hreply.
  - destruct (workflow_raises py_str _ w Hreply) as [_ ->].
    rewrite stdout_app. simpl. rewrite string_append_empty.
    split.
    + split; [intros Hneq; now elim Hneq | intros [r Hr]; discriminate Hr].
    + exists ""%string. now rewrite string_append_empty.
  - destruct (workflow_returns py_str _ w Hreply) as [_ ->].
    rewrite stdout_app. simpl. rewrite string_append_empty.
    split.
    + split; [intros _; now exists r|].
      intros _. apply string_append_grows, rendered_line_not_empty.
    + now exists (py_str (content r) ++ newline)%string.
Qed.

End Transparency.

(** X2 at two providers that agree on the notebook's request only. *)
Lemma run_depends_on_one_answer_witness :
  reply Sample.selective joke_request = reply Sample.answering joke_request /\
  reply Sample.selective [] <> reply Sample.answering [] /\
  run (joke_workflow Sample.render Sample.selective) [] =
    run (joke_workflow Sample.render Sample.answering) [] /\
  run (notebook Sample.render Sample.selective) [] =
    run (notebook Sample.render Sample.answering) [].
Proof.
  split; [reflexivity|]. split; [discriminate|].
  apply (run_depends_on_one_answer Sample.render
           Sample.selective Sample.answering []).
  reflexivity.
Defined.

(** X4 at the answering and at the failing provider. *)
Lemma prints_iff_answered_witness :
  stdout (history (joke_workflow Sample.render Sample.answering) []) <> ""%string /\
  (exists r, reply Sample.answering joke_request = inr r) /\
  stdout (history (joke_workflow Sample.render Sample.failing) []) = ""%string /\
  ~ (exists r, reply Sample.failing joke_request = inr r).
Proof.
  pose proof (proj1 (prints_iff_answered Sample.render Sample.answering []))
    as Hiff.
  assert (Hans : exists r, reply Sample.answering joke_request = inr r)
    by (exists Sample.joke; reflexivity).
  split; [exact (proj2 Hiff Hans)|].
  split; [exact Hans|].
  split; [reflexivity|].
  intros [r Hr]. discriminate Hr.
Defined.
